(** * flaskr: authentication, session gating and the post ownership check

    A shallow embedding of [flaskr/auth.py] and of [get_post] from
    [flaskr/blog.py].  View functions are computations over an explicit
    [world] (request, session, [g], database connection, flashed messages);
    Python exceptions are the [Raise] outcome of those computations.

    The storage engine, the password hashing functions and the routing table
    are collaborators of the two modules: the engine is modelled below for the
    statement forms the application issues, the other two are section
    variables. *)

From Stdlib Require Import ZArith String Ascii DecimalString.
From stdpp Require Import gmap strings list.

Open Scope string_scope.
Open Scope Z_scope.

(** Python's [str] of an [int], used by f-strings. *)
Definition str_of_int (z : Z) : string := NilEmpty.string_of_int (Z.to_int z).

(* ===================================================================== *)
(** ** The storage collaborator *)
(* ===================================================================== *)

Module Sqlite.

(** Values bound to [?] placeholders and held in rows. *)
Inductive value :=
| VNull
| VInt (z : Z)
| VText (s : string).

#[global] Instance value_eq_dec : EqDecision value.
Proof. solve_decision. Defined.

(** A fetched row ([sqlite3.Row]): the selected columns, in order, by name. *)
Definition Row := list (string * value).

Fixpoint row_get (k : string) (r : Row) : option value :=
  match r with
  | [] => None
  | (k', v) :: r' => if String.eqb k' k then Some v else row_get k r'
  end.

(** The exception classes of the DB-API that the engine can signal. *)
Inductive db_error :=
| OperationalError (msg : string)
| IntegrityError (msg : string)
| ProgrammingError (msg : string)
| NotSupportedError (msg : string).

(** *** Schema *)

(** Modelled from the spec: the schema file of the repository is not among
    the sources; section 6 of the specification fixes the two tables as
    [user(id PK, username UNIQUE NOT NULL, password TEXT NOT NULL)] and
    [post(id PK, author_id FK->user.id, title, body, created)]. *)
Record user_row := UserRow {
  u_id : Z;
  u_username : string;
  u_password : string
}.

Record post_row := PostRow {
  p_id : Z;
  p_author_id : Z;
  p_created : Z;
  p_title : string;
  p_body : string
}.

Record database := Database {
  user_table : list user_row;
  post_table : list post_row
}.

Definition user_values (u : user_row) : list value :=
  [VInt (u_id u); VText (u_username u); VText (u_password u)].

Definition post_values (p : post_row) : list value :=
  [VInt (p_id p); VInt (p_author_id p); VInt (p_created p);
   VText (p_title p); VText (p_body p)].

Definition user_columns : list string := ["id"; "username"; "password"].
Definition post_columns : list string :=
  ["id"; "author_id"; "created"; "title"; "body"].

(** What [SELECT * FROM user] yields for one stored user. *)
Definition user_to_row (u : user_row) : Row :=
  [("id", VInt (u_id u)); ("username", VText (u_username u));
   ("password", VText (u_password u))].

(** *** Statement text: tokens

    A token is a maximal run of identifier characters or a single
    punctuation character; blanks separate tokens and are dropped. *)

Inductive token :=
| TWord (w : string)
| TSym (a : ascii).

#[global] Instance token_eq_dec : EqDecision token.
Proof. solve_decision. Defined.

Definition is_word_char (a : ascii) : bool :=
  let n := nat_of_ascii a in
  ((48 <=? n) && (n <=? 57) || (65 <=? n) && (n <=? 90)
   || (97 <=? n) && (n <=? 122) || (n =? 95))%nat.

Definition is_blank (a : ascii) : bool :=
  let n := nat_of_ascii a in
  ((n =? 32) || (n =? 9) || (n =? 10) || (n =? 13))%nat.

Definition flush (w : string) : list token :=
  match w with
  | EmptyString => []
  | _ => [TWord w]
  end.

Fixpoint tokenize (w : string) (s : string) : list token :=
  match s with
  | EmptyString => flush w
  | String a s' =>
      if is_word_char a then tokenize (w +:+ String a EmptyString) s'
      else if is_blank a then flush w ++ tokenize EmptyString s'
      else flush w ++ TSym a :: tokenize EmptyString s'
  end.

(** *** Statement text: grammar

    The statement forms of the application:
    [INSERT INTO t (c, ...) VALUES (?, ...)] and
    [SELECT * | c, ... FROM t [a] [JOIN t [a] ON c = c] [WHERE c = ?]]. *)

Record column := Column {
  qualifier : option string;
  colname : string
}.

Record source := Source {
  table : string;
  alias : string
}.

Inductive statement :=
| Insert (into : string) (cols : list string) (nvalues : nat)
| Select (proj : option (list column)) (from : source)
         (join : option (source * column * column))
         (where_ : option column).

Definition keywords : list string :=
  ["SELECT"; "FROM"; "WHERE"; "JOIN"; "ON"; "INSERT"; "INTO"; "VALUES";
   "ORDER"; "BY"; "DESC"; "AS"].

Definition is_kw (k : string) (t : token) : bool := bool_decide (t = TWord k).
Definition is_sym (a : ascii) (t : token) : bool := bool_decide (t = TSym a).

Definition ident (t : token) : option string :=
  match t with
  | TWord w => if bool_decide (w ∈ keywords) then None else Some w
  | TSym _ => None
  end.

(** Split at the first occurrence of a token. *)
Fixpoint break_at (sep : token) (ts : list token)
  : option (list token * list token) :=
  match ts with
  | [] => None
  | t :: ts' =>
      if bool_decide (t = sep) then Some ([], ts')
      else '(l, r) ← break_at sep ts'; Some (t :: l, r)
  end.

Fixpoint split_commas (ts : list token) : list (list token) :=
  match ts with
  | [] => [[]]
  | t :: ts' =>
      if is_sym "," t then [] :: split_commas ts'
      else match split_commas ts' with
           | [] => [[t]]
           | g :: gs => (t :: g) :: gs
           end
  end.

Definition parse_column (ts : list token) : option column :=
  match ts with
  | [c] => Column None <$> ident c
  | [q; d; c] =>
      if is_sym "." d
      then q' ← ident q; c' ← ident c; Some (Column (Some q') c')
      else None
  | _ => None
  end.

Definition parse_proj (ts : list token) : option (option (list column)) :=
  match ts with
  | [t] => if is_sym "*" t then Some None
           else c ← parse_column ts; Some (Some [c])
  | _ => Some <$> mapM parse_column (split_commas ts)
  end.

Definition parse_source (ts : list token) : option source :=
  match ts with
  | [t] => n ← ident t; Some (Source n n)
  | [t; a] => n ← ident t; a' ← ident a; Some (Source n a')
  | _ => None
  end.

Definition parse_on (ts : list token) : option (column * column) :=
  '(l, r) ← break_at (TSym "=") ts;
  c1 ← parse_column l; c2 ← parse_column r; Some (c1, c2).

Definition parse_where (ts : list token) : option column :=
  '(l, r) ← break_at (TSym "=") ts;
  c ← parse_column l;
  match r with
  | [p] => if is_sym "?" p then Some c else None
  | _ => None
  end.

Definition parse_from (ts : list token)
  : option (source * option (source * column * column)) :=
  match break_at (TWord "JOIN") ts with
  | None => s ← parse_source ts; Some (s, None)
  | Some (l, r) =>
      s1 ← parse_source l;
      '(m, o) ← break_at (TWord "ON") r;
      s2 ← parse_source m;
      '(c1, c2) ← parse_on o;
      Some (s1, Some (s2, c1, c2))
  end.

Definition parse_select (ts : list token) : option statement :=
  '(p, rest) ← break_at (TWord "FROM") ts;
  proj ← parse_proj p;
  match break_at (TWord "WHERE") rest with
  | None => '(s, j) ← parse_from rest; Some (Select proj s j None)
  | Some (f, w) =>
      '(s, j) ← parse_from f;
      c ← parse_where w;
      Some (Select proj s j (Some c))
  end.

(** The tokens between an opening and its closing parenthesis. *)
Definition parenthesised (ts : list token) : option (list token) :=
  match ts with
  | o :: ts' =>
      if is_sym "(" o
      then match reverse ts' with
           | c :: inner => if is_sym ")" c then Some (reverse inner) else None
           | [] => None
           end
      else None
  | [] => None
  end.

Definition parse_name (ts : list token) : option string :=
  match ts with
  | [t] => ident t
  | _ => None
  end.

Definition parse_placeholder (ts : list token) : option unit :=
  match ts with
  | [t] => if is_sym "?" t then Some () else None
  | _ => None
  end.

Definition parse_insert (ts : list token) : option statement :=
  match ts with
  | i :: t :: rest =>
      if is_kw "INTO" i
      then
        n ← ident t;
        '(c, v) ← break_at (TWord "VALUES") rest;
        ci ← parenthesised c;
        vi ← parenthesised v;
        cols ← mapM parse_name (split_commas ci);
        vals ← mapM parse_placeholder (split_commas vi);
        Some (Insert n cols (length vals))
      else None
  | _ => None
  end.

Definition parse (sql : string) : option statement :=
  match tokenize EmptyString sql with
  | k :: ts =>
      if is_kw "SELECT" k then parse_select ts
      else if is_kw "INSERT" k then parse_insert ts
      else None
  | [] => None
  end.

(** *** Evaluation

    A relation is a header of (alias, column) pairs and a list of rows. *)

Definition relation := (list (string * string) * list (list value))%type.

Definition scan (db : database) (s : source) : option relation :=
  if String.eqb (table s) "user"
  then Some (map (pair (alias s)) user_columns,
             map user_values (user_table db))
  else if String.eqb (table s) "post"
  then Some (map (pair (alias s)) post_columns,
             map post_values (post_table db))
  else None.

Definition names (c : column) (h : string * string) : bool :=
  String.eqb (colname c) h.2
  && match qualifier c with
     | None => true
     | Some q => String.eqb q h.1
     end.

Fixpoint positions (c : column) (hs : list (string * string)) (i : nat)
  : list nat :=
  match hs with
  | [] => []
  | h :: hs' =>
      if names c h then i :: positions c hs' (S i) else positions c hs' (S i)
  end.

(** A column reference must name exactly one column of the header. *)
Definition resolve (c : column) (hs : list (string * string)) : option nat :=
  match positions c hs 0 with
  | [i] => Some i
  | _ => None
  end.

Definition cell (r : list value) (i : nat) : value := default VNull (r !! i).

(** [a = b] in a [WHERE] or [ON] clause; [NULL] equals nothing. *)
Definition sql_eq (a b : value) : bool :=
  match a, b with
  | VInt x, VInt y => bool_decide (x = y)
  | VText x, VText y => String.eqb x y
  | _, _ => false
  end.

Definition cross (r1 r2 : list (list value)) : list (list value) :=
  flat_map (λ a, map (app a) r2) r1.

Definition joined (db : database) (base : relation)
    (join : option (source * column * column)) : db_error + relation :=
  match join with
  | None => inr base
  | Some (s2, c1, c2) =>
      match scan db s2 with
      | None => inl (OperationalError ("no such table: " +:+ table s2))
      | Some (h2, r2) =>
          let h := (base.1 ++ h2)%list in
          match resolve c1 h, resolve c2 h with
          | Some i, Some j =>
              inr (h, filter (λ r, sql_eq (cell r i) (cell r j) = true)
                             (cross base.2 r2))
          | _, _ => inl (OperationalError "no such column")
          end
      end
  end.

Definition restrict (rel : relation) (where_ : option column)
    (params : list value) : db_error + list (list value) :=
  match where_, params with
  | None, [] => inr rel.2
  | Some c, [p] =>
      match resolve c rel.1 with
      | Some i => inr (filter (λ r, sql_eq (cell r i) p = true) rel.2)
      | None => inl (OperationalError "no such column")
      end
  | _, _ => inl (ProgrammingError "Incorrect number of bindings supplied.")
  end.

Definition projection (h : list (string * string))
    (proj : option (list column)) : option (list (string * nat)) :=
  match proj with
  | None => Some (imap (λ i hd, (hd.2, i)) h)
  | Some cols => mapM (λ c, i ← resolve c h; Some (colname c, i)) cols
  end.

Definition run_select (db : database) (proj : option (list column))
    (from : source) (join : option (source * column * column))
    (where_ : option column) (params : list value) : db_error + list Row :=
  match scan db from with
  | None => inl (OperationalError ("no such table: " +:+ table from))
  | Some base =>
      match joined db base join with
      | inl e => inl e
      | inr rel =>
          match restrict rel where_ params, projection rel.1 proj with
          | inl e, _ => inl e
          | inr _, None => inl (OperationalError "no such column")
          | inr rs, Some out =>
              inr (map (λ r, map (λ ni, (ni.1, cell r ni.2)) out) rs)
          end
      end
  end.

(** The value stored in a [TEXT NOT NULL] column; [None] for [NULL]. *)
Definition to_text (v : value) : option string :=
  match v with
  | VNull => None
  | VInt z => Some (str_of_int z)
  | VText s => Some s
  end.

(** The key the store assigns to a new user. *)
Definition next_id (users : list user_row) : Z :=
  1 + foldr Z.max 0 (map u_id users).

Definition username_taken (u : string) (users : list user_row) : bool :=
  existsb (λ r, String.eqb (u_username r) u) users.

(** [INSERT INTO user (username, password) VALUES (?, ?)]: the key is
    assigned by the store, both columns are [NOT NULL], [username] is
    [UNIQUE].  A violated constraint leaves the table as it was. *)
Definition insert_user (db : database) (cols : list string)
    (params : list value) : db_error + database :=
  if bool_decide (cols = ["username"; "password"])
  then
    match params with
    | [vu; vp] =>
        match to_text vu, to_text vp with
        | Some u, Some p =>
            if username_taken u (user_table db)
            then inl (IntegrityError "UNIQUE constraint failed: user.username")
            else inr (Database
                        (user_table db ++ [UserRow (next_id (user_table db)) u p])
                        (post_table db))
        | None, _ => inl (IntegrityError "NOT NULL constraint failed: user.username")
        | _, None => inl (IntegrityError "NOT NULL constraint failed: user.password")
        end
    | _ => inl (ProgrammingError "Incorrect number of bindings supplied.")
    end
  else inl (NotSupportedError "column list").

Definition run_insert (db : database) (into : string) (cols : list string)
    (nvalues : nat) (params : list value) : db_error + database :=
  if negb (length cols =? nvalues)%nat
  then inl (OperationalError "values for columns")
  else if negb (length params =? nvalues)%nat
  then inl (ProgrammingError "Incorrect number of bindings supplied.")
  else if String.eqb into "user" then insert_user db cols params
  else if String.eqb into "post" then inl (NotSupportedError "insert into post")
  else inl (OperationalError ("no such table: " +:+ into)).

(** *** Connections *)

(** Modelled from the spec: [flaskr.db.get_db] is not among the sources;
    section 6 of the specification gives the handle it returns
    [execute(query, params)], [commit()] and an [IntegrityError] signal for a
    violated constraint.  A connection reads and writes its [working] copy;
    [commit] makes the working copy [durable].  [journal] records every
    statement handed to [execute], most recent last. *)

Record connection := Connection {
  durable : database;
  working : database;
  journal : list (string * list value)
}.

Definition execute (sql : string) (params : list value) (c : connection)
  : (db_error + list Row) * connection :=
  let c' := Connection (durable c) (working c) (journal c ++ [(sql, params)]) in
  match parse sql with
  | None => (inl (OperationalError "syntax error"), c')
  | Some (Select proj from join where_) =>
      (run_select (working c) proj from join where_ params, c')
  | Some (Insert into cols n) =>
      match run_insert (working c) into cols n params with
      | inl e => (inl e, c')
      | inr db' =>
          (inr [], Connection (durable c) db' (journal c ++ [(sql, params)]))
      end
  end.

Definition commit (c : connection) : connection :=
  Connection (working c) (working c) (journal c).

(** A connection opened on the durable state; what was not committed on the
    previous one is gone. *)
Definition reopen (c : connection) : connection :=
  Connection (durable c) (durable c) (journal c).

(** [cursor.fetchone()]: the first row, or [None]. *)
Definition fetchone (rows : list Row) : option Row := head rows.

End Sqlite.

(* ===================================================================== *)
(** ** The request context *)
(* ===================================================================== *)

Module Flask.
Import Sqlite.

(** Exceptions a view function can end with. *)
Inductive exn :=
| DatabaseError (e : db_error)
| HTTPException (code : Z) (description : option string)
| BadRequestKeyError (key : string)
| NameError (name : string)
| TypeError (msg : string)
| IndexError (msg : string).

Record request_t := Request {
  method : string;
  form : gmap string string
}.

(** An object handed to [flash]: a message, or whatever else the variable
    holds at that point. *)
Inductive pyobj :=
| Str (s : string)
| RowObj (r : Row).

Inductive response :=
| Redirect (location : string)
| Rendered (template : string).

(** Everything a view function reads or writes.  [session] is the mapping
    kept for one client across requests; the only key the application stores
    in it is [user_id], a key of the user table.  [g_user] is [g.user].
    [salts] is the entropy source the password hasher draws from, [drawn]
    the number of draws so far. *)
Record world := World {
  request : request_t;
  session : gmap string Z;
  g_user : option Row;
  db : connection;
  flashes : list pyobj;
  salts : nat → string;
  drawn : nat
}.

Inductive outcome (A : Type) :=
| Return (a : A)
| Raise (e : exn).
Arguments Return {A} a.
Arguments Raise {A} e.

Definition M (A : Type) : Type := world → outcome A * world.

#[global] Instance M_ret : MRet M := λ A a w, (Return a, w).

#[global] Instance M_bind : MBind M := λ A B k m w,
  match m w with
  | (Return a, w') => k a w'
  | (Raise e, w') => (Raise e, w')
  end.

Definition raise {A} (e : exn) : M A := λ w, (Raise e, w).

(** [try: body / except <caught>: handler / else: orelse]. *)
Definition try_except_else {A B} (body : M A) (caught : exn → bool)
    (handler : M B) (orelse : A → M B) : M B := λ w,
  match body w with
  | (Return a, w') => orelse a w'
  | (Raise e, w') => if caught e then handler w' else (Raise e, w')
  end.

Definition is_IntegrityError (e : exn) : bool :=
  match e with
  | DatabaseError (IntegrityError _) => true
  | _ => false
  end.

(** A name that is bound neither in the function, nor in the module, nor
    among the builtins. *)
Definition unbound_name {A} (name : string) : M A := raise (NameError name).

(** *** [request], [session], [g], [flash] *)

Definition request_method : M string := λ w, (Return (method (request w)), w).

(** [request.form[key]] *)
Definition request_form (key : string) : M string := λ w,
  match form (request w) !! key with
  | Some v => (Return v, w)
  | None => (Raise (BadRequestKeyError key), w)
  end.

Definition session_get (key : string) : M (option Z) := λ w,
  (Return (session w !! key), w).

Definition session_set (key : string) (v : Z) : M unit := λ w,
  (Return (),
   World (request w) (<[key := v]> (session w)) (g_user w) (db w)
         (flashes w) (salts w) (drawn w)).

Definition session_clear : M unit := λ w,
  (Return (),
   World (request w) ∅ (g_user w) (db w) (flashes w) (salts w) (drawn w)).

Definition get_g_user : M (option Row) := λ w, (Return (g_user w), w).

Definition set_g_user (u : option Row) : M unit := λ w,
  (Return (),
   World (request w) (session w) u (db w) (flashes w) (salts w) (drawn w)).

Definition flash (message : pyobj) : M unit := λ w,
  (Return (),
   World (request w) (session w) (g_user w) (db w)
         (flashes w ++ [message])%list (salts w) (drawn w)).

Definition redirect (location : string) : response := Redirect location.
Definition render_template (template : string) : response := Rendered template.

(** [abort(code, description)] *)
Definition abort {A} (code : Z) (description : option string) : M A :=
  raise (HTTPException code description).

(** *** The connection of the request: [get_db()] *)

Definition db_execute (sql : string) (params : list value) : M (list Row) :=
  λ w,
  let '(r, c) := execute sql params (db w) in
  let w' := World (request w) (session w) (g_user w) c (flashes w)
                  (salts w) (drawn w) in
  match r with
  | inr rows => (Return rows, w')
  | inl e => (Raise (DatabaseError e), w')
  end.

Definition db_commit : M unit := λ w,
  (Return (),
   World (request w) (session w) (g_user w) (commit (db w)) (flashes w)
         (salts w) (drawn w)).

(** *** Subscripting rows *)

(** [row[key]] *)
Definition subscript (r : Row) (key : string) : M value :=
  match row_get key r with
  | Some v => mret v
  | None => raise (IndexError "No item with that key")
  end.

(** [obj[key]] where [obj] is a row or [None]. *)
Definition subscript_opt (o : option Row) (key : string) : M value :=
  match o with
  | Some r => subscript r key
  | None => raise (TypeError "'NoneType' object is not subscriptable")
  end.

Definition as_str (v : value) : M string :=
  match v with
  | VText s => mret s
  | _ => raise (TypeError "expected str")
  end.

Definition as_int (v : value) : M Z :=
  match v with
  | VInt z => mret z
  | _ => raise (TypeError "expected int")
  end.

(** Truth value of a [str]: empty is false. *)
Definition truthy (s : string) : bool := negb (String.eqb s "").

(** *** Between requests

    The next request of the same client: a new request object, the session
    carried over, a connection opened anew. *)
Definition next_request (r : request_t) (w : world) : world :=
  World r (session w) None (reopen (db w)) (flashes w) (salts w) (drawn w).

Definition POST (fields : list (string * string)) : request_t :=
  Request "POST" (list_to_map fields).

Definition GET : request_t := Request "GET" ∅.

End Flask.

(* ===================================================================== *)
(** ** flaskr/auth.py *)
(* ===================================================================== *)

Module Auth.
Import Sqlite Flask.

Section views.

(** [werkzeug.security]: the hasher draws a salt and derives the stored
    string from salt and password; the checker takes the stored string and a
    candidate password. *)
Variable derive_hash : string → string → string.
Variable check_password_hash : string → string → bool.

(** [flask.url_for]: the routing table of the application. *)
Variable url_for : string → string.

Definition generate_password_hash (password : string) : M string := λ w,
  (Return (derive_hash (salts w (drawn w)) password),
   World (request w) (session w) (g_user w) (db w) (flashes w) (salts w)
         (S (drawn w))).

Definition register : M response :=
  m ← request_method;
  if String.eqb m "POST" then
    username ← request_form "username";
    password ← request_form "password";
    let error : option string := None in
    let error :=
      if negb (truthy username) then Some "Username is required."
      else if negb (truthy password) then Some "Password is required."
      else error in
    r ← match error with
        | None =>
            try_except_else
              (h ← generate_password_hash password;
               db_execute "INSERT INTO user (username, password) VALUES (?, ?)"
                          [VText username; VText h];;
               db_commit)
              is_IntegrityError
              (mret (inr ("User " +:+ username +:+ " is already registered.")))
              (λ _, mret (inl (redirect (url_for "auth.login"))))
        | Some e => mret (inr e)
        end;
    match r with
    | inl resp => mret resp
    | inr e =>
        flash (Str e);;
        mret (render_template "auth/register.html")
    end
  else mret (render_template "auth/register.html").

(** The body of [login] assigns [username], [password], [db] and [error];
    the module binds the imported names, [bp] and its five functions.  The
    name [user], read on the line after the fetch, is none of these. *)
Definition login : M response :=
  m ← request_method;
  if String.eqb m "POST" then
    username ← request_form "username";
    password ← request_form "password";
    rows ← db_execute "SELECT * FROM user WHERE username = ?" [VText username];
    let error : option pyobj := RowObj <$> fetchone rows in
    user ← unbound_name (A := option Row) "user";
    error ← match user with
            | None => mret (Some (Str "Incorrect username."))
            | Some u =>
                stored ← subscript u "password";
                stored ← as_str stored;
                if negb (check_password_hash stored password)
                then mret (Some (Str "Incorrect password."))
                else mret error
            end;
    match error with
    | None =>
        session_clear;;
        uid ← subscript_opt user "id";
        uid ← as_int uid;
        session_set "user_id" uid;;
        mret (redirect (url_for "index"))
    | Some e =>
        flash e;;
        mret (render_template "auth/login.html")
    end
  else mret (render_template "auth/login.html").

Definition load_logged_in_user : M unit :=
  user_id ← session_get "user_id";
  match user_id with
  | None => set_g_user None
  | Some uid =>
      rows ← db_execute "SELECT * FROM user WHERE id = ?" [VInt uid];
      set_g_user (fetchone rows)
  end.

Definition logout : M response :=
  session_clear;;
  mret (redirect (url_for "index")).

Definition login_required {K} (view : K → M response) : K → M response :=
  λ kwargs,
  u ← get_g_user;
  match u with
  | None => mret (redirect (url_for "auth.login"))
  | Some _ => view kwargs
  end.

End views.
End Auth.

(* ===================================================================== *)
(** ** flaskr/blog.py *)
(* ===================================================================== *)

Module Blog.
Import Sqlite Flask.

(** The statement of [get_post]: three adjacent string literals. *)
Definition get_post_sql : string :=
  "SELECT p.id, title, body, created, author_id, username"
  +:+ "FROM post p JOIN user u ON p.author_id = u.id"
  +:+ "WHERE p.id = ?".

(** [a != b] on two cells. *)
Definition value_ne (a b : value) : bool := negb (bool_decide (a = b)).

(** The body of [get_post] over the text of its statement. *)
Definition get_post_using (sql : string) (id : Z) (check_author : bool)
  : M Row :=
  rows ← db_execute sql [VInt id];
  match fetchone rows with
  | None =>
      abort 404 (Some ("Post id " +:+ str_of_int id +:+ " doesn't exist."))
  | Some post =>
      forbidden ←
        (if check_author
         then a ← subscript post "author_id";
              u ← get_g_user;
              b ← subscript_opt u "id";
              mret (value_ne a b)
         else mret false);
      if (forbidden : bool) then abort 403 None else mret post
  end.

Definition get_post (id : Z) (check_author : bool) : M Row :=
  get_post_using get_post_sql id check_author.

(** The same three literals with the blanks that separate the clauses. *)
Definition get_post_sql_spaced : string :=
  "SELECT p.id, title, body, created, author_id, username"
  +:+ " FROM post p JOIN user u ON p.author_id = u.id"
  +:+ " WHERE p.id = ?".

End Blog.

(* ===================================================================== *)
(** ** The outcomes the specification names, and sample data *)
(* ===================================================================== *)

Module Outcomes.
Import Sqlite Flask.

(** The specification's error kinds, as the messages the views flash. *)
Definition ValidationError (field : string) : pyobj :=
  Str (field +:+ " is required.").

Definition DuplicateUsernameError (username : string) : pyobj :=
  Str ("User " +:+ username +:+ " is already registered.").

(** [NotFoundError] carrying the id, and [ForbiddenError]. *)
Definition NotFoundError (id : Z) : exn :=
  HTTPException 404 (Some ("Post id " +:+ str_of_int id +:+ " doesn't exist.")).

Definition ForbiddenError : exn := HTTPException 403 None.

(** The request that submits the registration or login form. *)
Definition credentials (username password : string) : request_t :=
  POST [("username", username); ("password", password)].

(** How many stored users carry a username. *)
Definition stored_as (u : string) (d : database) : nat :=
  length (filter (λ r, u_username r = u) (user_table d)).

Section twice.
Variable derive_hash : string → string → string.
Variable url_for : string → string.

Definition first_registration (u p1 : string) (w : world)
  : outcome response * world :=
  Auth.register derive_hash url_for (next_request (credentials u p1) w).

Definition second_registration (u p1 p2 : string) (w : world)
  : outcome response * world :=
  Auth.register derive_hash url_for
    (next_request (credentials u p2) (first_registration u p1 w).2).

(** Registering [u] again after a first success: the form is shown again
    with the duplicate message, and the store holds [u] once, in the durable
    state and in the connection's view of it. *)
Definition second_is_duplicate (u p1 p2 : string) (w : world) : Prop :=
  (first_registration u p1 w).1 = Return (Redirect (url_for "auth.login")) →
  (second_registration u p1 p2 w).1 = Return (Rendered "auth/register.html")
  ∧ flashes (second_registration u p1 p2 w).2
    = (flashes (first_registration u p1 w).2 ++ [DuplicateUsernameError u])%list
  ∧ durable (db (second_registration u p1 p2 w).2)
    = durable (db (first_registration u p1 w).2)
  ∧ working (db (second_registration u p1 p2 w).2)
    = durable (db (first_registration u p1 w).2)
  ∧ stored_as u (durable (db (second_registration u p1 p2 w).2)) = 1%nat.

End twice.
End Outcomes.

Module Sample.
Import Sqlite Flask Outcomes.

(** Stand-ins for the collaborators, to run the views on concrete data. *)
Definition derive_hash (salt password : string) : string :=
  "plain$" +:+ salt +:+ "$" +:+ password.

Definition check_password_hash (stored password : string) : bool :=
  let n := String.length password in
  String.eqb (substring (String.length stored - S n) (S n) stored)
             ("$" +:+ password).

Definition url_for (endpoint : string) : string :=
  if String.eqb endpoint "auth.register" then "/auth/register"
  else if String.eqb endpoint "auth.login" then "/auth/login"
  else if String.eqb endpoint "auth.logout" then "/auth/logout"
  else "/".

Definition empty_store : connection :=
  Connection (Database [] []) (Database [] []) [].

(** A new client of an application with nothing stored. *)
Definition fresh : world :=
  World GET ∅ None empty_store [] (λ n, str_of_int (Z.of_nat n)) 0.

(** After alice registered with password pw1. *)
Definition alice_registered : world :=
  (first_registration derive_hash url_for "alice" "pw1" fresh).2.

Definition alice : user_row := UserRow 1 "alice" "plain$0$pw1".

Definition bob : user_row := UserRow 2 "bob" "plain$1$pw2".

(** Two users, and a post written by the second. *)
Definition blog_store : connection :=
  let d := Database [alice; bob] [PostRow 1 2 0 "Hello" "First post"] in
  Connection d d [].

Definition anonymous_reader : world :=
  World GET ∅ None blog_store [] (λ n, str_of_int (Z.of_nat n)) 2.

Definition as_user (u : user_row) : world :=
  World GET {["user_id" := u_id u]} (Some (user_to_row u)) blog_store []
        (λ n, str_of_int (Z.of_nat n)) 2.

(** A view to put behind the guard: it flashes and renders. *)
Definition greet (_ : unit) : M response :=
  flash (Str "hello");; mret (render_template "blog/create.html").

End Sample.

(* ===================================================================== *)
(** ** flaskr/blog.py: the views that list and delete posts *)
(* ===================================================================== *)

Module BlogViews.
Import Sqlite Flask.

(** The statement of [index]: three adjacent string literals. *)
Definition index_sql : string :=
  "SELECT p.id, title, body, created, authro_id, username"
  +:+ "FROM post p JOIN user u ON p.author_id = u.id"
  +:+ "ORDER BY created DESC".

(** The body of [index] over the text of its statement; [fetchall()] is the
    list of rows.  The name it calls to render is bound nowhere. *)
Definition index_using (sql : string) : M response :=
  posts ← db_execute sql [];
  render_templatek ←
    unbound_name (A := string → list Row → response) "render_templatek";
  mret (render_templatek "blog/index.html" posts).

Definition index : M response := index_using index_sql.

Section views.
Variable url_for : string → string.



End views.
End BlogViews.

(* ===================================================================== *)
(** ** Invariants of the stored users *)
(* ===================================================================== *)

Module Store.
Import Sqlite Flask.

(** No two stored users share a username. *)
Definition usernames_unique (d : database) : Prop :=
  NoDup (map u_username (user_table d)).

(** Some stored user has the key [uid]. *)
Definition holds_id (uid : Z) (d : database) : Prop :=
  ∃ u, u ∈ user_table d ∧ u_id u = uid.

End Store.

(* ===================================================================== *)
(** ** Properties *)
(* ===================================================================== *)

Import Sqlite Flask Auth Blog Outcomes.

(** *** The engine on the statements of the application *)

Lemma parse_insert_user :
  parse "INSERT INTO user (username, password) VALUES (?, ?)"
  = Some (Insert "user" ["username"; "password"] 2).
Proof. vm_compute. reflexivity. Qed.

Lemma parse_select_user_by_id :
  parse "SELECT * FROM user WHERE id = ?"
  = Some (Select None (Source "user" "user") None (Some (Column None "id"))).
Proof. vm_compute. reflexivity. Qed.

Lemma parse_select_user_by_username :
  parse "SELECT * FROM user WHERE username = ?"
  = Some (Select None (Source "user" "user") None
            (Some (Column None "username"))).
Proof. vm_compute. reflexivity. Qed.

(** Joined without blanks, the last column and [FROM] are one word, as are
    [u.id]'s column and [WHERE]: the text of [get_post] has no [FROM]. *)
Lemma get_post_sql_tokens :
  TWord "usernameFROM" ∈ tokenize "" get_post_sql
  ∧ TWord "idWHERE" ∈ tokenize "" get_post_sql
  ∧ break_at (TWord "FROM") (tokenize "" get_post_sql) = None.
Proof.
  split; [|split].
  - eapply bool_decide_unpack. vm_compute. exact I.
  - eapply bool_decide_unpack. vm_compute. exact I.
  - vm_compute. reflexivity.
Qed.

Lemma parse_get_post_sql : parse get_post_sql = None.
Proof. vm_compute. reflexivity. Qed.

Lemma parse_get_post_sql_spaced :
  parse get_post_sql_spaced
  = Some (Select
            (Some [Column (Some "p") "id"; Column None "title";
                   Column None "body"; Column None "created";
                   Column None "author_id"; Column None "username"])
            (Source "post" "p")
            (Some (Source "user" "u", Column (Some "p") "author_id",
                   Column (Some "u") "id"))
            (Some (Column (Some "p") "id"))).
Proof. vm_compute. reflexivity. Qed.

Lemma select_user_where (db : database) (c : string) (i : nat) (p : value) :
  resolve (Column None c) (map (pair "user") user_columns) = Some i →
  run_select db None (Source "user" "user") None (Some (Column None c)) [p]
  = inr (map user_to_row
           (filter (λ u, sql_eq (cell (user_values u) i) p = true)
                   (user_table db))).
Proof.
  intros Hres. unfold run_select.
  change (scan db (Source "user" "user"))
    with (Some (map (pair "user") user_columns, map user_values (user_table db))).
  cbn [joined restrict fst snd]. rewrite Hres.
  change (projection _ None) with
    (Some [("id", 0%nat); ("username", 1%nat); ("password", 2%nat)]).
  cbv beta iota. f_equal.
  induction (user_table db) as [|u us IH]; [reflexivity|].
  rewrite map_cons, !filter_cons.
  destruct (decide (sql_eq (cell (user_values u) i) p = true));
    [rewrite !map_cons, IH|rewrite IH]; reflexivity.
Qed.

Lemma select_by_id (z uid : Z) (n p : string) :
  sql_eq (cell (user_values (UserRow z n p)) 0) (VInt uid) = true ↔ z = uid.
Proof. cbn. rewrite bool_decide_eq_true. reflexivity. Qed.

Lemma select_by_username (z : Z) (n p u : string) :
  sql_eq (cell (user_values (UserRow z n p)) 1) (VText u) = true ↔ n = u.
Proof. cbn. apply String.eqb_eq. Qed.

Lemma execute_select_user_by_id (c : connection) (uid : Z) :
  execute "SELECT * FROM user WHERE id = ?" [VInt uid] c
  = (inr (map user_to_row
            (filter (λ u, u_id u = uid) (user_table (working c)))),
     Connection (durable c) (working c)
       (journal c ++ [("SELECT * FROM user WHERE id = ?", [VInt uid])])).
Proof.
  unfold execute.
  rewrite parse_select_user_by_id.
  rewrite (select_user_where _ "id" 0) by reflexivity.
  do 3 f_equal. apply list_filter_iff. intros [z n p]. apply select_by_id.
Qed.

Lemma execute_select_user_by_username (c : connection) (u : string) :
  execute "SELECT * FROM user WHERE username = ?" [VText u] c
  = (inr (map user_to_row
            (filter (λ r, u_username r = u) (user_table (working c)))),
     Connection (durable c) (working c)
       (journal c ++ [("SELECT * FROM user WHERE username = ?", [VText u])])).
Proof.
  unfold execute. rewrite parse_select_user_by_username.
  rewrite (select_user_where _ "username" 1) by reflexivity.
  do 3 f_equal. apply list_filter_iff. intros [z n p]. apply select_by_username.
Qed.

Lemma execute_insert_user (c : connection) (u h : string) :
  let sql := "INSERT INTO user (username, password) VALUES (?, ?)" in
  execute sql [VText u; VText h] c
  = if username_taken u (user_table (working c))
    then (inl (IntegrityError "UNIQUE constraint failed: user.username"),
          Connection (durable c) (working c)
            (journal c ++ [(sql, [VText u; VText h])]))
    else (inr [],
          Connection (durable c)
            (Database
               (user_table (working c)
                ++ [UserRow (next_id (user_table (working c))) u h])
               (post_table (working c)))
            (journal c ++ [(sql, [VText u; VText h])])).
Proof.
  intros sql. unfold execute. subst sql. rewrite parse_insert_user.
  unfold run_insert. cbn [length Nat.eqb negb String.eqb].
  change (String.eqb "user" "user") with true. cbv iota.
  unfold insert_user. rewrite bool_decide_eq_true_2 by reflexivity.
  cbn [to_text]. destruct (username_taken _ _); reflexivity.
Qed.

Lemma execute_get_post_sql (c : connection) (params : list value) :
  execute get_post_sql params c
  = (inl (OperationalError "syntax error"),
     Connection (durable c) (working c) (journal c ++ [(get_post_sql, params)])).
Proof. unfold execute. rewrite parse_get_post_sql. reflexivity. Qed.

(** *** The views, run *)

Lemma truthy_false (s : string) : truthy s = false ↔ s = "".
Proof. unfold truthy. rewrite negb_false_iff. apply String.eqb_eq. Qed.

Lemma truthy_true (s : string) : truthy s = true ↔ s ≠ "".
Proof. unfold truthy. rewrite negb_true_iff. apply String.eqb_neq. Qed.

Lemma credentials_method (u p : string) (w : world) :
  method (request (next_request (credentials u p) w)) = "POST".
Proof. reflexivity. Qed.

Lemma credentials_username (u p : string) (w : world) :
  form (request (next_request (credentials u p) w)) !! "username" = Some u.
Proof. reflexivity. Qed.

Lemma credentials_password (u p : string) (w : world) :
  form (request (next_request (credentials u p) w)) !! "password" = Some p.
Proof. reflexivity. Qed.

Lemma username_taken_filter (u : string) (users : list user_row) :
  username_taken u users = false ↔ filter (λ r, u_username r = u) users = [].
Proof.
  unfold username_taken. induction users as [|r rs IH]; [done|].
  rewrite filter_cons. cbn [existsb]. rewrite orb_false_iff, IH.
  destruct (decide (u_username r = u)) as [E|E].
  - apply String.eqb_eq in E. rewrite E. split; [intros [? _]|]; done.
  - apply String.eqb_neq in E. rewrite E. tauto.
Qed.

Lemma username_taken_app (u : string) (l1 l2 : list user_row) :
  username_taken u (l1 ++ l2) = username_taken u l1 || username_taken u l2.
Proof. apply existsb_app. Qed.

Section views_run.
Variable derive_hash : string → string → string.
Variable check_password_hash : string → string → bool.
Variable url_for : string → string.

Local Abbreviation register := (Auth.register derive_hash url_for).
Local Abbreviation login := (Auth.login check_password_hash url_for).
Local Abbreviation logout := (Auth.logout url_for).
Local Abbreviation insert_sql :=
  "INSERT INTO user (username, password) VALUES (?, ?)".

(** A submitted registration form, case by case. *)
Lemma register_post (w : world) (u p : string) :
  method (request w) = "POST" →
  form (request w) !! "username" = Some u →
  form (request w) !! "password" = Some p →
  register w
  = if negb (truthy u)
    then (Return (Rendered "auth/register.html"),
          (flash (Str "Username is required.") w).2)
    else if negb (truthy p)
    then (Return (Rendered "auth/register.html"),
          (flash (Str "Password is required.") w).2)
    else
      let h := derive_hash (salts w (drawn w)) p in
      let w1 := (generate_password_hash derive_hash p w).2 in
      let w2 := (db_execute insert_sql [VText u; VText h] w1).2 in
      if username_taken u (user_table (working (db w)))
      then (Return (Rendered "auth/register.html"),
            (flash (Str ("User " +:+ u +:+ " is already registered.")) w2).2)
      else (Return (Redirect (url_for "auth.login")), (db_commit w2).2).
Proof.
  intros Hm Hu Hp.
  unfold Auth.register, mbind, M_bind, request_method.
  rewrite Hm. change (String.eqb "POST" "POST") with true. cbv iota.
  unfold request_form. rewrite Hu, Hp.
  destruct (truthy u); cbn [negb]; [|reflexivity].
  destruct (truthy p); cbn [negb]; [|reflexivity].
  unfold try_except_else, generate_password_hash, db_execute.
  cbn [db fst snd]. rewrite execute_insert_user.
  destruct (username_taken u _); reflexivity.
Qed.

(** A successful registration commits one more user: the submitted name
    with the hash derived from the drawn salt and the submitted password. *)
Lemma register_success_stores (w : world) (u p : string) :
  method (request w) = "POST" →
  form (request w) !! "username" = Some u →
  form (request w) !! "password" = Some p →
  (register w).1 = Return (Redirect (url_for "auth.login")) →
  user_table (durable (db (register w).2))
  = (user_table (working (db w))
     ++ [UserRow (next_id (user_table (working (db w)))) u
           (derive_hash (salts w (drawn w)) p)])%list.
Proof.
  intros Hm Hu Hp. rewrite (register_post w u p Hm Hu Hp).
  destruct (truthy u); cbn [negb]; [|discriminate].
  destruct (truthy p); cbn [negb]; [|discriminate].
  cbv zeta.
  destruct (username_taken u (user_table (working (db w)))) eqn:Hfree;
    [discriminate|]. intros _.
  unfold db_commit, db_execute, generate_password_hash. cbn [snd db].
  rewrite execute_insert_user. cbv zeta. cbn [working]. rewrite Hfree.
  reflexivity.
Qed.

(** A submitted login form. *)
Lemma login_post (w : world) (u p : string) :
  method (request w) = "POST" →
  form (request w) !! "username" = Some u →
  form (request w) !! "password" = Some p →
  login w
  = (Raise (NameError "user"),
     (db_execute "SELECT * FROM user WHERE username = ?" [VText u] w).2).
Proof.
  intros Hm Hu Hp.
  unfold Auth.login, mbind, M_bind, request_method.
  rewrite Hm. change (String.eqb "POST" "POST") with true. cbv iota.
  unfold request_form. rewrite Hu, Hp.
  unfold db_execute. rewrite execute_select_user_by_username. reflexivity.
Qed.

Lemma load_logged_in_user_run (w : world) :
  load_logged_in_user w
  = match session w !! "user_id" with
    | None => (Return (), (set_g_user None w).2)
    | Some uid =>
        (Return (),
         (set_g_user
            (head (map user_to_row
                     (filter (λ u, u_id u = uid) (user_table (working (db w))))))
            (db_execute "SELECT * FROM user WHERE id = ?" [VInt uid] w).2).2)
    end.
Proof.
  unfold load_logged_in_user, mbind, M_bind, session_get.
  destruct (session w !! "user_id") as [uid|]; [|reflexivity].
  unfold db_execute. rewrite execute_select_user_by_id. reflexivity.
Qed.

End views_run.

(** *** Registration *)

Section registration.
Variable derive_hash : string → string → string.
Variable check_password_hash : string → string → bool.
Variable url_for : string → string.

Local Abbreviation register := (Auth.register derive_hash url_for).
Local Abbreviation login := (Auth.login check_password_hash url_for).
Local Abbreviation logout := (Auth.logout url_for).

(** C7. A registration form with an empty username or an empty password is
    answered with the form again and the message naming the empty field
    (the username when both are empty); the connection, with its durable
    state, its working state and its journal of executed statements, is the
    one the request started with, and no salt was drawn. *)
Theorem register_rejects_empty_field (w : world) (u p : string) :
  method (request w) = "POST" →
  form (request w) !! "username" = Some u →
  form (request w) !! "password" = Some p →
  u = "" ∨ p = "" →
  register w
  = (Return (Rendered "auth/register.html"),
     World (request w) (session w) (g_user w) (db w)
       (flashes w
        ++ [ValidationError (if decide (u = "") then "Username" else "Password")])
       (salts w) (drawn w)).
Proof.
  intros Hm Hu Hp Hempty. rewrite (register_post _ _ w u p Hm Hu Hp).
  destruct (decide (u = "")) as [->|Hne].
  - reflexivity.
  - destruct Hempty as [?| ->]; [done|].
    apply truthy_true in Hne. rewrite Hne. reflexivity.
Qed.

(** C2, amended. When a first registration of [u] succeeded, a second
    registration of [u] with a non-empty password is answered with the form
    and the message that [u] is already registered; the durable state is the
    one the first registration left, the connection holds nothing more, and
    exactly one stored user carries the name [u]. *)
Theorem register_twice_duplicate (w : world) (u p1 p2 : string) :
  p2 ≠ "" →
  second_is_duplicate derive_hash url_for u p1 p2 w.
Proof.
  intros Hp2 Hfirst. unfold second_registration.
  revert Hfirst. unfold first_registration.
  set (w0 := next_request (credentials u p1) w).
  rewrite (register_post _ _ w0 u p1) by reflexivity.
  destruct (truthy u) eqn:Hu; cbn [negb]; [|discriminate].
  destruct (truthy p1) eqn:Hp1; cbn [negb]; [|discriminate].
  cbv zeta.
  destruct (username_taken u (user_table (working (db w0)))) eqn:Hfree;
    [discriminate|]. intros _.
  set (w1 := (db_commit _).2).
  assert (Husers : user_table (durable (db w1))
                   = (user_table (durable (db w)) ++
                      [UserRow (next_id (user_table (durable (db w)))) u
                         (derive_hash (salts w (drawn w)) p1)])%list).
  { subst w1. unfold db_commit, db_execute, generate_password_hash.
    cbn [snd db]. rewrite execute_insert_user. cbv zeta.
    change (working (db w0)) with (durable (db w)) in Hfree |- *.
    rewrite Hfree. reflexivity. }
  change (working (db w0)) with (durable (db w)) in Hfree.
  set (w0' := next_request (credentials u p2) w1).
  rewrite (register_post _ _ w0' u p2) by reflexivity.
  rewrite Hu. apply truthy_true in Hp2. rewrite Hp2. cbn [negb]. cbv zeta.
  change (working (db w0')) with (durable (db w1)).
  assert (Htaken : username_taken u (user_table (durable (db w1))) = true).
  { rewrite Husers, username_taken_app. cbn [username_taken existsb u_username].
    rewrite String.eqb_refl. rewrite orb_true_r. reflexivity. }
  rewrite Htaken.
  unfold flash, db_execute, generate_password_hash. cbn [snd fst db flashes].
  rewrite execute_insert_user. cbv zeta.
  change (working (db w0')) with (durable (db w1)). rewrite Htaken.
  cbn [snd fst db flashes durable working].
  repeat split.
  unfold stored_as. change (durable (db w0')) with (durable (db w1)).
  rewrite Husers, filter_app.
  apply username_taken_filter in Hfree. rewrite Hfree.
  rewrite filter_cons, decide_True by reflexivity. reflexivity.
Qed.

End registration.

(** *** Identity, guard, logout, login *)

Lemma head_filter_Some {A} (P : A → Prop) `{∀ x, Decision (P x)}
    (l : list A) (x : A) :
  head (filter P l) = Some x → x ∈ l ∧ P x.
Proof.
  intros Hh. apply head_Some_elem_of in Hh.
  apply list_elem_of_filter in Hh. tauto.
Qed.

Lemma head_filter_None {A} (P : A → Prop) `{∀ x, Decision (P x)}
    (l : list A) :
  head (filter P l) = None ↔ ∀ x, x ∈ l → ¬ P x.
Proof.
  induction l as [|a l IH]; [split; [intros _ x Hx; inversion Hx|done]|].
  rewrite filter_cons. destruct (decide (P a)) as [Ha|Ha].
  - split; [done|]. intros Hall. exfalso. apply (Hall a); [left|done].
  - rewrite IH. split.
    + intros Hall x Hx. inversion Hx; subst; [done|]. by apply Hall.
    + intros Hall x Hx. apply Hall. by right.
Qed.

Lemma head_map {A B} (f : A → B) (l : list A) : head (map f l) = f <$> head l.
Proof. destruct l; reflexivity. Qed.

Section session_gate.
Variable derive_hash : string → string → string.
Variable check_password_hash : string → string → bool.
Variable url_for : string → string.

Local Abbreviation login := (Auth.login check_password_hash url_for).
Local Abbreviation logout := (Auth.logout url_for).
Local Abbreviation login_required := (Auth.login_required url_for).

(** C4. Behind the guard, a request whose identity is anonymous is answered
    with the redirect to the login entry point and the world is left as it
    was, whatever the guarded view is: the view is not run.  With an
    identity loaded, the guard is the view on the same arguments. *)
Theorem login_required_guard {K} (view : K → M response) (kwargs : K)
    (w : world) :
  (g_user w = None →
   login_required view kwargs w
   = (Return (Redirect (url_for "auth.login")), w))
  ∧ (∀ u, g_user w = Some u →
     login_required view kwargs w = view kwargs w).
Proof.
  unfold Auth.login_required, mbind, M_bind, get_g_user.
  split; [intros -> | intros u ->]; reflexivity.
Qed.

(** C6. The resolver always completes, leaves the session alone, and sets
    the identity of the request either to anonymous or to the row of a
    stored user whose key is the session's [user_id].  It is anonymous
    exactly when the session has no [user_id] or no stored user has that
    key; the [id] of an exposed row is never another one than the
    session's. *)
Theorem load_logged_in_user_identity (w : world) :
  (load_logged_in_user w).1 = Return ()
  ∧ session (load_logged_in_user w).2 = session w
  ∧ (g_user (load_logged_in_user w).2 = None
     ∨ ∃ u, u ∈ user_table (working (db w))
          ∧ session w !! "user_id" = Some (u_id u)
          ∧ g_user (load_logged_in_user w).2 = Some (user_to_row u))
  ∧ (g_user (load_logged_in_user w).2 = None
     ↔ session w !! "user_id" = None
       ∨ ∃ uid, session w !! "user_id" = Some uid
              ∧ ∀ u, u ∈ user_table (working (db w)) → u_id u ≠ uid)
  ∧ (∀ r, g_user (load_logged_in_user w).2 = Some r →
     ∃ uid, session w !! "user_id" = Some uid
          ∧ row_get "id" r = Some (VInt uid)).
Proof.
  rewrite load_logged_in_user_run.
  destruct (session w !! "user_id") as [uid|] eqn:Hs.
  - cbn [fst snd set_g_user g_user session db_execute].
    unfold db_execute. rewrite execute_select_user_by_id.
    cbn [fst snd session g_user].
    set (found := filter (λ u, u_id u = uid) (user_table (working (db w)))).
    assert (Hfound : ∀ u, head found = Some u →
                          u ∈ user_table (working (db w)) ∧ u_id u = uid).
    { intros u. apply (head_filter_Some (λ u, u_id u = uid)). }
    assert (Hnone : head found = None ↔
                    ∀ u, u ∈ user_table (working (db w)) → u_id u ≠ uid).
    { apply (head_filter_None (λ u, u_id u = uid)). }
    rewrite head_map. clearbody found.
    destruct (head found) as [u|]; cbn [fmap option_fmap option_map].
    + destruct (Hfound u eq_refl) as [Hin <-].
      repeat split; try done.
      * right. exists u. done.
      * intros [?|(uid & Huid & Hall)]; [done|].
        injection Huid as <-. by destruct (Hall u Hin).
      * intros r [= <-]. exists (u_id u). done.
    + repeat split; try done.
      * by left.
      * intros _. right. exists uid. split; [done|]. by apply Hnone.
  - cbn [fst snd set_g_user g_user session].
    repeat split; try done.
    + by left.
    + intros _. by left.
Qed.

(** C8. Logging out answers with the redirect to the index and leaves an
    empty session, whatever the session held; on any next request the
    resolver completes with the anonymous identity.  A session without a
    [user_id] resolved to the anonymous identity before as well, and on an
    empty session logging out changes nothing at all. *)
Theorem logout_clears_session (w : world) (r : request_t) :
  (logout w).1 = Return (Redirect (url_for "index"))
  ∧ session (logout w).2 = ∅
  ∧ load_logged_in_user (next_request r (logout w).2)
    = (Return (), next_request r (logout w).2)
  ∧ g_user (load_logged_in_user (next_request r (logout w).2)).2 = None
  ∧ (session w !! "user_id" = None →
     g_user (load_logged_in_user (next_request r w)).2 = None)
  ∧ (session w = ∅ → (logout w).2 = w).
Proof.
  repeat split.
  - intros Hanon. rewrite load_logged_in_user_run.
    change (session (next_request r w)) with (session w). rewrite Hanon.
    reflexivity.
  - intros Hempty. destruct w. cbn in *. by subst.
Qed.



(** A submitted login form ends in the fault of the unbound name; nothing
    is flashed and the session is the one the request came with. *)
Lemma login_post_keeps (w : world) (u p : string) :
  method (request w) = "POST" →
  form (request w) !! "username" = Some u →
  form (request w) !! "password" = Some p →
  (login w).1 = Raise (NameError "user")
  ∧ session (login w).2 = session w
  ∧ flashes (login w).2 = flashes w
  ∧ g_user (login w).2 = g_user w.
Proof.
  intros Hm Hu Hp. rewrite (login_post _ _ w u p Hm Hu Hp).
  unfold db_execute. rewrite execute_select_user_by_username. done.
Qed.

End session_gate.

(** *** The ownership check, and the views on the sample data *)

(** [get_post] ends in the engine's rejection of its statement text, for
    every id, flag and world; the world differs by the journal entry only. *)
Lemma get_post_raises (id : Z) (check_author : bool) (w : world) :
  get_post id check_author w
  = (Raise (DatabaseError (OperationalError "syntax error")),
     World (request w) (session w) (g_user w)
       (Connection (durable (db w)) (working (db w))
          (journal (db w) ++ [(get_post_sql, [VInt id])]))
       (flashes w) (salts w) (drawn w)).
Proof.
  unfold get_post, get_post_using, mbind, M_bind, db_execute.
  rewrite execute_get_post_sql. reflexivity.
Qed.

(** What follows the fetch in [get_post], for a statement text the engine
    accepts. *)
Lemma get_post_using_fetched (sql : string) (id : Z) (check_author : bool)
    (w : world) (rows : list Row) :
  (db_execute sql [VInt id] w).1 = Return rows →
  get_post_using sql id check_author w
  = let w' := (db_execute sql [VInt id] w).2 in
    match fetchone rows with
    | None => (Raise (NotFoundError id), w')
    | Some post =>
        if check_author
        then match row_get "author_id" post, g_user w' with
             | None, _ => (Raise (IndexError "No item with that key"), w')
             | Some _, None =>
                 (Raise (TypeError "'NoneType' object is not subscriptable"), w')
             | Some a, Some u =>
                 match row_get "id" u with
                 | None => (Raise (IndexError "No item with that key"), w')
                 | Some b =>
                     if bool_decide (a = b) then (Return post, w')
                     else (Raise ForbiddenError, w')
                 end
             end
        else (Return post, w')
    end.
Proof.
  intros Hrows. unfold get_post_using, mbind, M_bind.
  destruct (db_execute sql [VInt id] w) as [[rows'|e] w'] eqn:Hexec;
    cbn [fst snd] in *; [|discriminate].
  injection Hrows as ->.
  destruct (fetchone rows) as [post|]; [|reflexivity].
  destruct check_author; [|reflexivity].
  unfold subscript, get_g_user, subscript_opt.
  destruct (row_get "author_id" post) as [a|]; [|reflexivity].
  cbn. destruct (g_user w') as [u|]; [|reflexivity].
  unfold subscript. destruct (row_get "id" u) as [b|]; [|reflexivity].
  cbn. unfold value_ne. destruct (bool_decide (a = b)); reflexivity.
Qed.

(** With the blanks between the literals the engine accepts the text, and
    the four ways through [get_post] are taken on the sample store. *)
Example get_post_using_spaced_text :
  (get_post_using get_post_sql_spaced 1 true (Sample.as_user Sample.bob)).1
  = Return [("id", VInt 1); ("title", VText "Hello");
            ("body", VText "First post"); ("created", VInt 0);
            ("author_id", VInt 2); ("username", VText "bob")]
  ∧ (get_post_using get_post_sql_spaced 1 true (Sample.as_user Sample.alice)).1
    = Raise ForbiddenError
  ∧ (get_post_using get_post_sql_spaced 5 true (Sample.as_user Sample.alice)).1
    = Raise (NotFoundError 5)
  ∧ (get_post_using get_post_sql_spaced 1 true Sample.anonymous_reader).1
    = Raise (TypeError "'NoneType' object is not subscriptable")
  ∧ (get_post_using get_post_sql_spaced 1 false Sample.anonymous_reader).1
    = (get_post_using get_post_sql_spaced 1 true (Sample.as_user Sample.bob)).1.
Proof. vm_compute. repeat split. Qed.

(** C1. On the sample store, which holds alice only, a login for an unknown
    username and a login for alice with a wrong password both end in
    [NameError] for the name [user]: no message is flashed and the form is
    not rendered again.  No session is established either. *)
Theorem login_bad_credentials_raise_NameError :
  let unknown := next_request (credentials "nobody" "pw1") Sample.alice_registered in
  let wrong := next_request (credentials "alice" "wrong") Sample.alice_registered in
  Auth.login Sample.check_password_hash Sample.url_for unknown
  = (Raise (NameError "user"),
     (db_execute "SELECT * FROM user WHERE username = ?" [VText "nobody"]
                 unknown).2)
  ∧ Auth.login Sample.check_password_hash Sample.url_for wrong
    = (Raise (NameError "user"),
       (db_execute "SELECT * FROM user WHERE username = ?" [VText "alice"]
                   wrong).2)
  ∧ flashes (Auth.login Sample.check_password_hash Sample.url_for unknown).2 = []
  ∧ flashes (Auth.login Sample.check_password_hash Sample.url_for wrong).2 = []
  ∧ session (Auth.login Sample.check_password_hash Sample.url_for unknown).2 = ∅
  ∧ session (Auth.login Sample.check_password_hash Sample.url_for wrong).2 = ∅.
Proof.
  cbv zeta.
  rewrite (login_post _ _ (next_request (credentials "nobody" "pw1") _)
             "nobody" "pw1") by reflexivity.
  rewrite (login_post _ _ (next_request (credentials "alice" "wrong") _)
             "alice" "wrong") by reflexivity.
  repeat split.
Qed.

(** C5. On the sample store, with the session of bob, a login with the
    username and password of alice (the stored hash verifies the password)
    ends in [NameError] for the name [user]; the session still holds bob's
    key and nothing else. *)
Theorem login_valid_credentials_raise_NameError :
  let w := next_request (credentials "alice" "pw1") (Sample.as_user Sample.bob) in
  Sample.alice ∈ user_table (working (db w))
  ∧ Sample.check_password_hash (u_password Sample.alice) "pw1" = true
  ∧ (Auth.login Sample.check_password_hash Sample.url_for w).1
    = Raise (NameError "user")
  ∧ session (Auth.login Sample.check_password_hash Sample.url_for w).2
    = {["user_id" := 2]}.
Proof.
  cbv zeta. split; [left|]. split; [reflexivity|].
  rewrite (login_post _ _ (next_request (credentials "alice" "pw1") _)
             "alice" "pw1") by reflexivity.
  split; reflexivity.
Qed.

(** C3. On the sample store, [get_post] ends in the engine's
    [OperationalError] for the post's author, for another user, for a post
    that does not exist, and with the ownership comparison switched off. *)
Theorem get_post_raises_OperationalError :
  (get_post 1 true (Sample.as_user Sample.bob)).1
  = Raise (DatabaseError (OperationalError "syntax error"))
  ∧ (get_post 1 true (Sample.as_user Sample.alice)).1
    = Raise (DatabaseError (OperationalError "syntax error"))
  ∧ (get_post 5 true (Sample.as_user Sample.alice)).1
    = Raise (DatabaseError (OperationalError "syntax error"))
  ∧ (get_post 1 false (Sample.as_user Sample.alice)).1
    = Raise (DatabaseError (OperationalError "syntax error")).
Proof. rewrite !get_post_raises. repeat split. Qed.

(** C10. On the sample store, with the anonymous identity and the ownership
    comparison on, [get_post] for an existing post ends in the engine's
    [OperationalError]; the identity is not subscripted. *)
Theorem get_post_anonymous_raises_OperationalError :
  g_user Sample.anonymous_reader = None
  ∧ (get_post 1 true Sample.anonymous_reader).1
    = Raise (DatabaseError (OperationalError "syntax error"))
  ∧ (get_post 1 true Sample.anonymous_reader).1
    ≠ Raise (TypeError "'NoneType' object is not subscriptable").
Proof. rewrite !get_post_raises. repeat split. discriminate. Qed.

(** C2 as stated fails for an empty second password: after alice
    registered, registering alice with an empty password is answered with
    the message for the missing password. *)
Lemma register_twice_empty_password :
  ¬ second_is_duplicate Sample.derive_hash Sample.url_for
      "alice" "pw1" "" Sample.fresh.
Proof.
  intros H. destruct (H eq_refl) as (_ & Hflash & _).
  vm_compute in Hflash. discriminate Hflash.
Qed.

Lemma register_rejects_empty_field_witness :
  Auth.register Sample.derive_hash Sample.url_for
    (next_request (credentials "carol" "") Sample.alice_registered)
  = (Return (Rendered "auth/register.html"),
     World (credentials "carol" "") ∅ None (db Sample.alice_registered)
       [ValidationError "Password"] (salts Sample.alice_registered) 1).
Proof.
  apply (register_rejects_empty_field Sample.derive_hash Sample.url_for
           (next_request (credentials "carol" "") Sample.alice_registered)
           "carol" "").
  - reflexivity.
  - reflexivity.
  - reflexivity.
  - right. reflexivity.
Defined.

Lemma register_twice_duplicate_witness :
  (second_registration Sample.derive_hash Sample.url_for
     "alice" "pw1" "pw2" Sample.fresh).1
  = Return (Rendered "auth/register.html")
  ∧ flashes (second_registration Sample.derive_hash Sample.url_for
               "alice" "pw1" "pw2" Sample.fresh).2
    = [DuplicateUsernameError "alice"]
  ∧ stored_as "alice"
      (durable (db (second_registration Sample.derive_hash Sample.url_for
                      "alice" "pw1" "pw2" Sample.fresh).2)) = 1%nat.
Proof.
  destruct (register_twice_duplicate Sample.derive_hash Sample.url_for
              Sample.fresh "alice" "pw1" "pw2") as (H1 & H2 & _ & _ & H5).
  - discriminate.
  - reflexivity.
  - split; [exact H1|]. split; [exact H2|exact H5].
Defined.

Lemma login_required_guard_witness :
  Auth.login_required Sample.url_for Sample.greet () Sample.anonymous_reader
  = (Return (Redirect "/auth/login"), Sample.anonymous_reader)
  ∧ Auth.login_required Sample.url_for Sample.greet () (Sample.as_user Sample.bob)
    = Sample.greet () (Sample.as_user Sample.bob).
Proof.
  split.
  - apply (proj1 (login_required_guard Sample.url_for Sample.greet ()
                    Sample.anonymous_reader)).
    reflexivity.
  - apply (proj2 (login_required_guard Sample.url_for Sample.greet ()
                    (Sample.as_user Sample.bob)) (user_to_row Sample.bob)).
    reflexivity.
Defined.

Lemma load_logged_in_user_identity_witness :
  g_user (load_logged_in_user (Sample.as_user Sample.bob)).2
  = Some (user_to_row Sample.bob)
  ∧ row_get "id" (user_to_row Sample.bob) = Some (VInt 2).
Proof.
  split; [reflexivity|].
  destruct (load_logged_in_user_identity (Sample.as_user Sample.bob))
    as (_ & _ & _ & _ & Hid).
  destruct (Hid (user_to_row Sample.bob) eq_refl) as (uid & Hs & Hrow).
  vm_compute in Hs. injection Hs as <-. exact Hrow.
Defined.

Lemma logout_clears_session_witness :
  session (Auth.logout Sample.url_for (Sample.as_user Sample.bob)).2 = ∅
  ∧ g_user (load_logged_in_user
              (next_request GET
                 (Auth.logout Sample.url_for (Sample.as_user Sample.bob)).2)).2
    = None
  ∧ (Auth.logout Sample.url_for Sample.fresh).2 = Sample.fresh.
Proof.
  destruct (logout_clears_session Sample.url_for (Sample.as_user Sample.bob) GET)
    as (_ & Hs & _ & Hg & _ & _).
  destruct (logout_clears_session Sample.url_for Sample.fresh GET)
    as (_ & _ & _ & _ & _ & Hnoop).
  split; [exact Hs|]. split; [exact Hg|]. apply Hnoop. reflexivity.
Defined.

(* ===================================================================== *)
(** ** Further properties of the views *)
(* ===================================================================== *)

Import BlogViews Store.

Lemma next_id_above (users : list user_row) (u : user_row) :
  u ∈ users → u_id u < next_id users.
Proof.
  unfold next_id. induction users as [|a l IH]; intros Hin.
  - inversion Hin.
  - cbn [map foldr]. inversion Hin; subst; [lia|].
    specialize (IH ltac:(assumption)). lia.
Qed.

Section registration_more.
Variable derive_hash : string → string → string.
Variable url_for : string → string.

Local Abbreviation register := (Auth.register derive_hash url_for).
Local Abbreviation insert_sql :=
  "INSERT INTO user (username, password) VALUES (?, ?)".

(** Every request, case by case. *)
Lemma register_cases (w : world) :
  (method (request w) ≠ "POST"
   ∧ register w = (Return (Rendered "auth/register.html"), w))
  ∨ (method (request w) = "POST"
     ∧ form (request w) !! "username" = None
     ∧ register w = (Raise (BadRequestKeyError "username"), w))
  ∨ (∃ u, method (request w) = "POST"
     ∧ form (request w) !! "username" = Some u
     ∧ form (request w) !! "password" = None
     ∧ register w = (Raise (BadRequestKeyError "password"), w))
  ∨ (∃ u p, method (request w) = "POST"
     ∧ form (request w) !! "username" = Some u
     ∧ form (request w) !! "password" = Some p).
Proof.
  destruct (String.eqb (method (request w)) "POST") eqn:Hm.
  - apply String.eqb_eq in Hm. right.
    destruct (form (request w) !! "username") as [u|] eqn:Hu.
    + right. destruct (form (request w) !! "password") as [p|] eqn:Hp.
      * right. exists u, p. done.
      * left. exists u. repeat split; try done.
        unfold Auth.register, mbind, M_bind, request_method.
        rewrite Hm. change (String.eqb "POST" "POST") with true. cbv iota.
        unfold request_form. rewrite Hu, Hp. reflexivity.
    + left. repeat split; try done.
      unfold Auth.register, mbind, M_bind, request_method.
      rewrite Hm. change (String.eqb "POST" "POST") with true. cbv iota.
      unfold request_form. rewrite Hu. reflexivity.
  - left. split; [by apply String.eqb_neq|].
    unfold Auth.register, mbind, M_bind, request_method. rewrite Hm.
    reflexivity.
Qed.

(** X1. A submitted registration form that lacks the username field, or has
    it and lacks the password field, ends in the fault of the missing key
    (the username's when both are missing, the first one read); the world,
    with the connection and its journal, is untouched. *)
Theorem register_missing_field (w : world) :
  method (request w) = "POST" →
  form (request w) !! "username" = None
  ∨ form (request w) !! "password" = None →
  register w
  = (Raise (BadRequestKeyError
              match form (request w) !! "username" with
              | None => "username"
              | Some _ => "password"
              end), w).
Proof.
  intros Hm Hmiss.
  destruct (register_cases w) as [[Hn _]|[(_ & Hu & ->)|[(u & _ & Hu & Hp & ->)
    |(u & p & _ & Hu & Hp)]]].
  - done.
  - rewrite Hu. reflexivity.
  - rewrite Hu. reflexivity.
  - rewrite Hu, Hp in Hmiss. destruct Hmiss; discriminate.
Qed.


(** The store after any registration request: as it was, or committed with
    one more user under a username that was free. *)
Lemma register_store (w : world) :
  (durable (db (register w).2) = durable (db w)
   ∧ working (db (register w).2) = working (db w))
  ∨ (∃ u p, u ≠ "" ∧ p ≠ ""
     ∧ form (request w) !! "username" = Some u
     ∧ form (request w) !! "password" = Some p
     ∧ username_taken u (user_table (working (db w))) = false
     ∧ (register w).1 = Return (Redirect (url_for "auth.login"))
     ∧ working (db (register w).2) = durable (db (register w).2)
     ∧ durable (db (register w).2)
       = Database
           (user_table (working (db w))
            ++ [UserRow (next_id (user_table (working (db w)))) u
                  (derive_hash (salts w (drawn w)) p)])
           (post_table (working (db w)))).
Proof.
  destruct (register_cases w) as [[_ ->]|[(_ & _ & ->)|[(u & _ & _ & _ & ->)
    |(u & p & Hm & Hu & Hp)]]]; try (left; done).
  rewrite (register_post _ _ w u p Hm Hu Hp).
  destruct (truthy u) eqn:Htu; cbn [negb]; [|left; done].
  destruct (truthy p) eqn:Htp; cbn [negb]; [|left; done].
  cbv zeta. unfold db_commit, flash, db_execute, generate_password_hash.
  cbn [snd db]. rewrite execute_insert_user. cbv zeta. cbn [working].
  destruct (username_taken u (user_table (working (db w)))) eqn:Hfree.
  - left. done.
  - right. exists u, p. apply truthy_true in Htu, Htp. done.
Qed.

Lemma username_taken_elem_of (u : string) (users : list user_row) :
  username_taken u users = false ↔ u ∉ map u_username users.
Proof.
  unfold username_taken. induction users as [|r rs IH].
  - split; [intros _ H; inversion H|done].
  - cbn [existsb map]. rewrite orb_false_iff, IH, not_elem_of_cons.
    rewrite String.eqb_neq. split; intros [? ?]; split; congruence.
Qed.

(** X3. Whatever the request, registration keeps the usernames of the
    stored users distinct, in the durable store and in the connection's view
    of it. *)
Theorem register_keeps_usernames_unique (w : world) :
  usernames_unique (durable (db w)) →
  usernames_unique (working (db w)) →
  usernames_unique (durable (db (register w).2))
  ∧ usernames_unique (working (db (register w).2)).
Proof.
  intros Hd Hw.
  destruct (register_store w) as [[-> ->]|(u & p & _ & _ & _ & _ & Hfree & _ & -> & ->)];
    [done|].
  assert (usernames_unique
            (Database
               (user_table (working (db w))
                ++ [UserRow (next_id (user_table (working (db w)))) u
                      (derive_hash (salts w (drawn w)) p)])
               (post_table (working (db w))))); [|done].
  unfold usernames_unique in *. cbn [user_table].
  rewrite map_app. apply NoDup_app. split; [done|]. split.
  - intros x Hx Hin. cbn in Hin. apply list_elem_of_singleton in Hin. subst x.
    by apply username_taken_elem_of in Hfree.
  - cbn. apply NoDup_singleton.
Qed.


Lemma filter_key_fresh (users : list user_row) :
  filter (λ r, u_id r = next_id users) users = [].
Proof.
  assert (H : ∀ l : list user_row,
             (∀ r, r ∈ l → u_id r < next_id users) →
             filter (λ r, u_id r = next_id users) l = []).
  { induction l as [|a l IH]; intros Hall; [done|].
    rewrite filter_cons, decide_False.
    - apply IH. intros r Hr. apply Hall. by right.
    - specialize (Hall a ltac:(left)). lia. }
  apply H. intros r. apply next_id_above.
Qed.

(** X5. Registration and the resolver agree.  After a successful
    registration, a next request whose session holds the key the store
    assigned resolves to the registered user: that key, the submitted
    username and the stored hash. *)
Theorem register_then_resolve (w : world) (u p : string) (r : request_t) :
  method (request w) = "POST" →
  form (request w) !! "username" = Some u →
  form (request w) !! "password" = Some p →
  (register w).1 = Return (Redirect (url_for "auth.login")) →
  g_user (load_logged_in_user
            (next_request r
               (session_set "user_id" (next_id (user_table (working (db w))))
                            (register w).2).2)).2
  = Some [("id", VInt (next_id (user_table (working (db w)))));
          ("username", VText u);
          ("password", VText (derive_hash (salts w (drawn w)) p))].
Proof.
  intros Hm Hu Hp Hok.
  pose proof (register_success_stores _ _ w u p Hm Hu Hp Hok) as Hst.
  rewrite load_logged_in_user_run.
  set (nid := next_id (user_table (working (db w)))) in *.
  set (w1 := (register w).2) in *.
  change (session (next_request r (session_set "user_id" nid w1).2))
    with (<["user_id" := nid]> (session w1)).
  rewrite lookup_insert_eq.
  change (working (db (next_request r (session_set "user_id" nid w1).2)))
    with (durable (db w1)).
  rewrite Hst, filter_app. subst nid. rewrite filter_key_fresh.
  rewrite filter_cons, decide_True by reflexivity. reflexivity.
Qed.

End registration_more.

Section login_more.
Variable check_password_hash : string → string → bool.
Variable url_for : string → string.

Local Abbreviation login := (Auth.login check_password_hash url_for).

(** X6. Whatever the request, login never answers with a redirect and
    never changes the session, [g.user], the flashed messages or the store.
    A request that is not a [POST] gets the login form; a submitted form
    ends in the fault of a missing field or, with both fields present, in
    the fault of the unbound name [user]. *)
Theorem login_never_succeeds (w : world) :
  session (login w).2 = session w
  ∧ g_user (login w).2 = g_user w
  ∧ flashes (login w).2 = flashes w
  ∧ durable (db (login w).2) = durable (db w)
  ∧ working (db (login w).2) = working (db w)
  ∧ (∀ l, (login w).1 ≠ Return (Redirect l))
  ∧ (method (request w) ≠ "POST" →
     login w = (Return (Rendered "auth/login.html"), w))
  ∧ (method (request w) = "POST" →
     (login w).1
     = Raise match form (request w) !! "username",
                   form (request w) !! "password" with
             | None, _ => BadRequestKeyError "username"
             | Some _, None => BadRequestKeyError "password"
             | Some _, Some _ => NameError "user"
             end).
Proof.
  destruct (String.eqb (method (request w)) "POST") eqn:Hm.
  - apply String.eqb_eq in Hm.
    destruct (form (request w) !! "username") as [u|] eqn:Hu;
      [destruct (form (request w) !! "password") as [p|] eqn:Hp|].
    + rewrite (login_post _ _ w u p Hm Hu Hp).
      unfold db_execute. rewrite execute_select_user_by_username.
      cbn. repeat split; try done.
    + assert (login w = (Raise (BadRequestKeyError "password"), w)) as ->.
      { unfold Auth.login, mbind, M_bind, request_method.
        rewrite Hm. change (String.eqb "POST" "POST") with true. cbv iota.
        unfold request_form. rewrite Hu, Hp. reflexivity. }
      cbn. repeat split; try done.
    + assert (login w = (Raise (BadRequestKeyError "username"), w)) as ->.
      { unfold Auth.login, mbind, M_bind, request_method.
        rewrite Hm. change (String.eqb "POST" "POST") with true. cbv iota.
        unfold request_form. rewrite Hu. reflexivity. }
      cbn. repeat split; try done.
  - assert (login w = (Return (Rendered "auth/login.html"), w)) as ->.
    { unfold Auth.login, mbind, M_bind, request_method. rewrite Hm.
      reflexivity. }
    apply String.eqb_neq in Hm. cbn. repeat split; try done.
Qed.

End login_more.

(** X7. The resolver only reads.  It leaves the session, the flashed
    messages and the store as they were, and the identity it exposes is a
    function of the session and of the users the connection sees: whatever
    [g.user] held before plays no part. *)
Theorem load_logged_in_user_reads_only (w : world) :
  session (load_logged_in_user w).2 = session w
  ∧ flashes (load_logged_in_user w).2 = flashes w
  ∧ durable (db (load_logged_in_user w).2) = durable (db w)
  ∧ working (db (load_logged_in_user w).2) = working (db w)
  ∧ ∀ w2, session w2 = session w →
          user_table (working (db w2)) = user_table (working (db w)) →
          g_user (load_logged_in_user w2).2 = g_user (load_logged_in_user w).2.
Proof.
  rewrite load_logged_in_user_run.
  repeat split.
  1-4: destruct (session w !! "user_id"); [|done];
       cbn [snd set_g_user session flashes db]; unfold db_execute;
       rewrite execute_select_user_by_id; reflexivity.
  intros w2 Hs Hu. rewrite load_logged_in_user_run, Hs, Hu.
  destruct (session w !! "user_id"); reflexivity.
Qed.

Lemma head_filter_key (uid : Z) (users : list user_row) :
  (∃ u, u ∈ users ∧ u_id u = uid)
  ↔ ∃ u, head (filter (λ r, u_id r = uid) users) = Some u.
Proof.
  split.
  - intros (u & Hin & Hid).
    destruct (head (filter (λ r, u_id r = uid) users)) as [x|] eqn:Hh;
      [by exists x|].
    pose proof (proj1 (head_filter_None (λ r, u_id r = uid) users) Hh) as Hall.
    by destruct (Hall u Hin).
  - intros (u & Hh). exists u.
    exact (head_filter_Some (λ r, u_id r = uid) users u Hh).
Qed.

Section gate_more.
Variable url_for : string → string.

Local Abbreviation logout := (Auth.logout url_for).
Local Abbreviation login_required := (Auth.login_required url_for).

(** X8. The guard after the resolver.  When the session holds the key of a
    user the connection sees, the guarded view runs, on the world the
    resolver left; in every other case (no [user_id] in the session, or a
    [user_id] that no stored user has) the request is answered with the
    redirect to the login page and the view is not run. *)
Theorem guard_after_resolver {K} (view : K → M response) (kwargs : K)
    (w : world) :
  ((∃ uid, session w !! "user_id" = Some uid ∧ holds_id uid (working (db w))) →
   login_required view kwargs (load_logged_in_user w).2
   = view kwargs (load_logged_in_user w).2)
  ∧ (¬ (∃ uid, session w !! "user_id" = Some uid
             ∧ holds_id uid (working (db w))) →
     login_required view kwargs (load_logged_in_user w).2
     = (Return (Redirect (url_for "auth.login")), (load_logged_in_user w).2)).
Proof.
  unfold Auth.login_required, mbind, M_bind, get_g_user, holds_id.
  rewrite load_logged_in_user_run.
  destruct (session w !! "user_id") as [uid|] eqn:Hs.
  - cbn [snd set_g_user g_user]. rewrite head_map.
    destruct (head (filter (λ u, u_id u = uid) (user_table (working (db w)))))
      as [u|] eqn:Hh.
    + split; [reflexivity|]. intros Hno. exfalso. apply Hno. exists uid.
      split; [done|]. apply head_filter_key. by exists u.
    + split; [|reflexivity]. intros (uid' & [= <-] & Hheld).
      apply head_filter_key in Hheld as (u & Hu). congruence.
  - split; [|reflexivity]. intros (uid & ? & _). discriminate.
Qed.

(** X9. After logging out, whatever the session held, every guarded view
    of the next request is answered with the redirect to the login page and
    is not run. *)
Theorem logout_then_guarded {K} (view : K → M response) (kwargs : K)
    (w : world) (r : request_t) :
  login_required view kwargs
    (load_logged_in_user (next_request r (logout w).2)).2
  = (Return (Redirect (url_for "auth.login")), next_request r (logout w).2).
Proof.
  rewrite load_logged_in_user_run. reflexivity.
Qed.



End gate_more.

(** X10. The index view never renders.  Whatever the engine does with the
    statement, the view ends in a fault: the one of the engine, or the one
    of the unbound name it calls to render.  With the text the view has,
    it is the engine's [OperationalError], for every world, and the store
    is as it was. *)
Theorem index_never_renders (w : world) :
  (∀ sql, ∃ e, (index_using sql w).1 = Raise e)
  ∧ (index w).1 = Raise (DatabaseError (OperationalError "syntax error"))
  ∧ durable (db (index w).2) = durable (db w)
  ∧ working (db (index w).2) = working (db w).
Proof.
  split.
  - intros sql. unfold index_using, mbind, M_bind.
    destruct (db_execute sql [] w) as [[rows|e] w']; eauto.
  - unfold index, index_using, mbind, M_bind, db_execute, execute.
    assert (parse index_sql = None) as -> by (vm_compute; reflexivity).
    done.
Qed.

(** *** The further properties on the sample data *)

Lemma register_missing_field_witness :
  Auth.register Sample.derive_hash Sample.url_for
    (next_request (POST [("username", "carol")]) Sample.alice_registered)
  = (Raise (BadRequestKeyError "password"),
     next_request (POST [("username", "carol")]) Sample.alice_registered).
Proof.
  apply (register_missing_field Sample.derive_hash Sample.url_for
           (next_request (POST [("username", "carol")]) Sample.alice_registered)).
  - reflexivity.
  - right. reflexivity.
Defined.


Lemma register_keeps_usernames_unique_witness :
  usernames_unique
    (durable (db (Auth.register Sample.derive_hash Sample.url_for
                    (next_request (credentials "carol" "pw3")
                                  Sample.alice_registered)).2)).
Proof.
  apply (register_keeps_usernames_unique Sample.derive_hash Sample.url_for
           (next_request (credentials "carol" "pw3") Sample.alice_registered)).
  - apply NoDup_singleton.
  - apply NoDup_singleton.
Defined.

Lemma register_then_resolve_witness :
  g_user (load_logged_in_user
            (next_request GET
               (session_set "user_id" 1
                  (Auth.register Sample.derive_hash Sample.url_for
                     (next_request (credentials "alice" "pw1") Sample.fresh)).2).2)).2
  = Some (user_to_row Sample.alice).
Proof.
  apply (register_then_resolve Sample.derive_hash Sample.url_for
           (next_request (credentials "alice" "pw1") Sample.fresh)
           "alice" "pw1" GET); reflexivity.
Defined.

Lemma login_never_succeeds_witness :
  (Auth.login Sample.check_password_hash Sample.url_for
     (next_request (credentials "alice" "pw1") Sample.alice_registered)).1
  = Raise (NameError "user")
  ∧ Auth.login Sample.check_password_hash Sample.url_for Sample.fresh
    = (Return (Rendered "auth/login.html"), Sample.fresh).
Proof.
  destruct (login_never_succeeds Sample.check_password_hash Sample.url_for
              (next_request (credentials "alice" "pw1") Sample.alice_registered))
    as (_ & _ & _ & _ & _ & _ & _ & Hpost).
  destruct (login_never_succeeds Sample.check_password_hash Sample.url_for
              Sample.fresh)
    as (_ & _ & _ & _ & _ & _ & Hget & _).
  split; [apply Hpost; reflexivity|apply Hget; discriminate].
Defined.

Lemma load_logged_in_user_reads_only_witness :
  g_user (load_logged_in_user
            (World GET {["user_id" := 2]} None Sample.blog_store [] (λ _, "") 0)).2
  = g_user (load_logged_in_user (Sample.as_user Sample.bob)).2.
Proof.
  destruct (load_logged_in_user_reads_only (Sample.as_user Sample.bob))
    as (_ & _ & _ & _ & Hsame).
  apply Hsame; reflexivity.
Defined.

Lemma guard_after_resolver_witness :
  Auth.login_required Sample.url_for Sample.greet ()
    (load_logged_in_user (Sample.as_user Sample.bob)).2
  = Sample.greet () (load_logged_in_user (Sample.as_user Sample.bob)).2
  ∧ Auth.login_required Sample.url_for Sample.greet ()
      (load_logged_in_user Sample.anonymous_reader).2
    = (Return (Redirect "/auth/login"),
       (load_logged_in_user Sample.anonymous_reader).2).
Proof.
  split.
  - apply (proj1 (guard_after_resolver Sample.url_for Sample.greet ()
                    (Sample.as_user Sample.bob))).
    exists 2. split; [reflexivity|]. exists Sample.bob.
    split; [right; left|reflexivity].
  - apply (proj2 (guard_after_resolver Sample.url_for Sample.greet ()
                    Sample.anonymous_reader)).
    intros (uid & Hs & _). vm_compute in Hs. discriminate Hs.
Defined.
